(** * Crypto Price ETL pipeline: a shallow embedding of [main.py]

    The script runs three stages in sequence, [extract_data],
    [transform_data] and [load_data], under the driver [etl_process].
    Each stage is a [try] block around calls into [requests], [pandas],
    [datetime] and [logging], with an [except Exception] handler that
    logs the error and re-raises it.

    The stages are embedded as computations in a state-and-exception
    monad over an explicit [world] (file system, log, console, network
    and clock).  The calls into the libraries are modelled by their
    documented behaviour; the parts of that behaviour that are
    floating-point or that the script never relies on are parameters of
    [Section Pipeline]. *)

From Stdlib Require Import ZArith NArith List Ascii String DecimalString.
From stdpp Require Import base option gmap strings list fin_maps.
From Stdlib Require DecimalPos DecimalN.

Local Open Scope string_scope.
Local Open Scope list_scope.
Local Set Warnings "-register-all".

(** ** Python values *)

(** The objects [response.json()] can return, and the objects a
    DataFrame cell can hold.  A JSON number is kept as its literal: the
    script never computes with one. *)
Inductive value :=
| VNone
| VBool (b : bool)
| VNum (literal : string)
| VStr (s : string)
| VList (items : list value)
| VDict (fields : gmap string value).

(** A raised exception: its class and [str(e)]. *)
Record exn := Exn { exn_class : string; exn_str : string }.

(** ** Text helpers *)

Definition chr_quote : ascii := ascii_of_nat 34.
Definition chr_lf : ascii := ascii_of_nat 10.

Definition str_of_chr (c : ascii) : string := String c EmptyString.

(** [str(n)] for a natural number. *)
Definition str_N (n : N) : string := NilZero.string_of_uint (N.to_uint n).

(** [str.zfill]: left-pad with zeros up to [width]. *)
Definition zfill (width : nat) (s : string) : string :=
  string_of_list_ascii (replicate (width - String.length s) "0"%char) +:+ s.

(** POSIX [os.linesep] and [os.path.join]. *)
Definition os_linesep : string := str_of_chr chr_lf.

Definition ends_with_slash (s : string) : bool :=
  match last (list_ascii_of_string s) with
  | Some c => Ascii.eqb c "/"
  | None => false
  end.

Definition os_path_join (a b : string) : string :=
  match b with
  | String "/" _ => b
  | _ => if (String.eqb a "" || ends_with_slash a)%bool then a +:+ b
         else a +:+ "/" +:+ b
  end.

(** ** datetime *)

Record datetime := {
  year : N; month : N; day : N; hour : N; minute : N; second : N
}.

(** [dt.strftime("%Y-%m-%d %H:%M:%S")]. *)
Definition strftime (dt : datetime) : string :=
  zfill 4 (str_N (year dt)) +:+ "-" +:+ zfill 2 (str_N (month dt)) +:+ "-" +:+
  zfill 2 (str_N (day dt)) +:+ " " +:+ zfill 2 (str_N (hour dt)) +:+ ":" +:+
  zfill 2 (str_N (minute dt)) +:+ ":" +:+ zfill 2 (str_N (second dt)).

(** The ranges of the fields of a [datetime] read from a running system
    clock (four-digit year). *)
Definition datetime_ok (dt : datetime) : Prop :=
  (1000 <= year dt <= 9999 /\ 1 <= month dt <= 12 /\ 1 <= day dt <= 31 /\
   hour dt <= 23 /\ minute dt <= 59 /\ second dt <= 59)%N.

(** The pattern [YYYY-MM-DD HH:MM:SS]: [None] stands for a decimal
    digit, [Some c] for the character [c] itself. *)
Definition is_digit (c : ascii) : bool :=
  let n := nat_of_ascii c in (Nat.leb 48 n && Nat.leb n 57)%bool.

Definition timestamp_pattern : list (option ascii) :=
  [None; None; None; None; Some "-"%char; None; None; Some "-"%char;
   None; None; Some " "%char; None; None; Some ":"%char; None; None;
   Some ":"%char; None; None].

Fixpoint matches_pattern (p : list (option ascii)) (s : string) : bool :=
  match p, s with
  | [], EmptyString => true
  | None :: p', String c s' => (is_digit c && matches_pattern p' s')%bool
  | Some d :: p', String c s' => (Ascii.eqb c d && matches_pattern p' s')%bool
  | _, _ => false
  end.

Definition is_timestamp (s : string) : bool :=
  matches_pattern timestamp_pattern s.

(** A string of exactly [k] decimal digits. *)
Definition digits_exactly (k : nat) (s : string) : bool :=
  (Nat.eqb (String.length s) k && forallb is_digit (list_ascii_of_string s))%bool.

(** The number a string of decimal digits writes, leading zeros
    allowed. *)
Definition N_of_digits (s : string) : N :=
  match NilEmpty.uint_of_string s with
  | Some d => N.of_uint d
  | None => 0%N
  end.

(** ** pandas DataFrame *)

(** A cell holds a Python object, or is missing ([None] here is pandas'
    NaN). *)
Abbreviation cell := (option value).

(** Columns in order, each with its label and its cells; [df_nrows] is
    the length of the index. *)
Record DataFrame := {
  df_nrows : nat;
  df_columns : list (string * list cell)
}.

Definition labels (df : DataFrame) : list string := (df_columns df).*1.

(** The first column carrying a label. *)
Definition column (df : DataFrame) (label : string) : option (list cell) :=
  (λ hit : nat * (string * list cell), hit.2.2) <$>
    list_find (λ c, c.1 = label) (df_columns df).

(** Row [i], as the cell of each column in column order. *)
Definition row (df : DataFrame) (i : nat) : list (string * cell) :=
  (λ c, (c.1, default None (c.2 !! i))) <$> df_columns df.

Definition rows (df : DataFrame) : list (list (string * cell)) :=
  row df <$> seq 0 (df_nrows df).

Definition as_dict (v : value) : option (gmap string value) :=
  match v with VDict d => Some d | _ => None end.

(** The payload seen as a sequence of records, when it is a list whose
    elements are all dicts (the empty list included). *)
Definition as_records (data : value) : option (list (gmap string value)) :=
  match data with
  | VList items => mapM as_dict items
  | _ => None
  end.

(** [pd.DataFrame(records, columns=cols)] on a list of dicts: one row
    per dict, one column per requested label; a dict without the key
    gives a missing cell. *)
Definition frame_of_records (recs : list (gmap string value))
    (cols : list string) : DataFrame :=
  {| df_nrows := length recs;
     df_columns := (λ c, (c, (λ d : gmap string value, d !! c) <$> recs)) <$> cols |}.

(** [df.rename(columns=mapping, inplace=True)]. *)
Definition rename (mapping : gmap string string) (df : DataFrame) : DataFrame :=
  {| df_nrows := df_nrows df;
     df_columns := (λ c, (default c.1 (mapping !! c.1), c.2)) <$> df_columns df |}.

(** [df[label] = v] for a scalar [v]: broadcast over the index; an
    existing column is replaced in place, a new one is appended. *)
Definition setitem (label : string) (v : value) (df : DataFrame) : DataFrame :=
  let filled := replicate (df_nrows df) (Some v) in
  {| df_nrows := df_nrows df;
     df_columns :=
       if decide (label ∈ labels df)
       then (λ c, if decide (c.1 = label) then (c.1, filled) else c) <$> df_columns df
       else df_columns df ++ [(label, filled)] |}.

(** ** csv writer *)

(** QUOTE_MINIMAL: a field is quoted when it holds the delimiter, the
    quote character or a character of the line terminator; quotes
    inside are doubled. *)
Definition csv_special (c : ascii) : bool :=
  (Ascii.eqb c ","%char || Ascii.eqb c chr_quote ||
   existsb (Ascii.eqb c) (list_ascii_of_string os_linesep))%bool.

Fixpoint double_quotes (s : string) : string :=
  match s with
  | EmptyString => EmptyString
  | String c s' =>
      if Ascii.eqb c chr_quote then String c (String c (double_quotes s'))
      else String c (double_quotes s')
  end.

Definition csv_field (s : string) : string :=
  if existsb csv_special (list_ascii_of_string s)
  then str_of_chr chr_quote +:+ double_quotes s +:+ str_of_chr chr_quote
  else s.

(** [writer.writerow(fields)]; a row of one empty field is written as
    an empty quoted field. *)
Definition csv_line (fields : list string) : string :=
  match fields with
  | [EmptyString] => str_of_chr chr_quote +:+ str_of_chr chr_quote +:+ os_linesep
  | _ => String.concat "," (csv_field <$> fields) +:+ os_linesep
  end.

(** ** The world *)

Inductive level := INFO | ERROR.

Inductive param_value := PStr (s : string) | PInt (n : N).

Record http_request := {
  req_method : string;
  req_url : string;
  req_params : list (string * param_value)
}.

(** What [requests] hands back: the status line, the final URL and the
    outcome of decoding the body ([response.json()]). *)
Record http_response := {
  status_code : N;
  reason : string;
  url : string;
  json_body : exn + value
}.

(** One reading of the system clock: [time.time()] in nanoseconds and
    the local [datetime.now()]. *)
Record instant := { epoch_ns : Z; local_time : datetime }.

(** - [w_fs]: the files, by path;
    - [w_log]: the records appended to the log file, oldest first, each
      with its level and message (the time the formatter puts in front
      is left out);
    - [w_stdout]: the lines printed;
    - [w_sent]: the calls of [requests.get] made, oldest first;
    - [w_net]: what the [n]-th call meets, an exception or the response
      [requests] hands back;
    - [w_ticks], [w_clock]: the number of clock readings taken so far
      and the value of each reading;
    - [w_io]: the outcome of opening [path] for writing and writing
      [content]: [None] when it succeeds, else the [OSError] and the
      state the file is left in ([None]: as it was). *)
Record world := {
  w_fs : gmap string string;
  w_log : list (level * string);
  w_stdout : list string;
  w_sent : list http_request;
  w_net : nat → http_request → exn + http_response;
  w_ticks : nat;
  w_clock : nat → instant;
  w_io : string → string → option (exn * option string)
}.

Definition set_fs (f : gmap string string → gmap string string) (w : world) : world :=
  {| w_fs := f (w_fs w); w_log := w_log w; w_stdout := w_stdout w;
     w_sent := w_sent w; w_net := w_net w; w_ticks := w_ticks w;
     w_clock := w_clock w; w_io := w_io w |}.

Definition set_log (f : list (level * string) → list (level * string)) (w : world) : world :=
  {| w_fs := w_fs w; w_log := f (w_log w); w_stdout := w_stdout w;
     w_sent := w_sent w; w_net := w_net w; w_ticks := w_ticks w;
     w_clock := w_clock w; w_io := w_io w |}.

Definition set_stdout (f : list string → list string) (w : world) : world :=
  {| w_fs := w_fs w; w_log := w_log w; w_stdout := f (w_stdout w);
     w_sent := w_sent w; w_net := w_net w; w_ticks := w_ticks w;
     w_clock := w_clock w; w_io := w_io w |}.

Definition set_sent (f : list http_request → list http_request) (w : world) : world :=
  {| w_fs := w_fs w; w_log := w_log w; w_stdout := w_stdout w;
     w_sent := f (w_sent w); w_net := w_net w; w_ticks := w_ticks w;
     w_clock := w_clock w; w_io := w_io w |}.

Definition set_ticks (f : nat → nat) (w : world) : world :=
  {| w_fs := w_fs w; w_log := w_log w; w_stdout := w_stdout w;
     w_sent := w_sent w; w_net := w_net w; w_ticks := f (w_ticks w);
     w_clock := w_clock w; w_io := w_io w |}.

(** ** Computations that may raise *)

Definition M (A : Type) : Type := world → (exn + A) * world.

Definition ret {A} (a : A) : M A := λ w, (inr a, w).

Definition raise {A} (e : exn) : M A := λ w, (inl e, w).

Definition bind {A B} (m : M A) (k : A → M B) : M B :=
  λ w, match m w with
       | (inr a, w') => k a w'
       | (inl e, w') => (inl e, w')
       end.

(** [try: body / except Exception as e: handler e]. *)
Definition try_except {A} (body : M A) (handler : exn → M A) : M A :=
  λ w, match body w with
       | (inr a, w') => (inr a, w')
       | (inl e, w') => handler e w'
       end.

(** A library call that returns or raises without touching the world. *)
Definition lift {A} (r : exn + A) : M A := λ w, (r, w).

Declare Scope py_scope.
Delimit Scope py_scope with py.
Notation "'let*' x ':=' m 'in' k" := (bind m (λ x, k))
  (at level 10, x name, m at level 100, k at level 200) : py_scope.
Notation "m '>>' k" := (bind m (λ _, k))
  (at level 100, k at level 200, right associativity) : py_scope.
Local Open Scope py_scope.

(** ** Library calls on the world *)

Definition logging_info (msg : string) : M unit :=
  λ w, (inr tt, set_log (λ l, l ++ [(INFO, msg)]) w).

Definition logging_error (msg : string) : M unit :=
  λ w, (inr tt, set_log (λ l, l ++ [(ERROR, msg)]) w).

Definition print (line : string) : M unit :=
  λ w, (inr tt, set_stdout (λ l, l ++ [line]) w).

(** [time.time()] and [datetime.now()]: each takes one reading. *)
Definition time_time : M Z :=
  λ w, (inr (epoch_ns (w_clock w (w_ticks w))), set_ticks S w).

Definition datetime_now : M datetime :=
  λ w, (inr (local_time (w_clock w (w_ticks w))), set_ticks S w).

(** [requests.get(url, params=params)]: one call, recorded in [w_sent]. *)
Definition requests_get (u : string) (params : list (string * param_value))
    : M http_response :=
  λ w, let rq := {| req_method := "GET"; req_url := u; req_params := params |} in
       (w_net w (length (w_sent w)) rq, set_sent (λ l, l ++ [rq]) w).

(** [response.raise_for_status()]. *)
Definition raise_for_status (r : http_response) : exn + unit :=
  let msg kind := str_N (status_code r) +:+ " " +:+ kind +:+ " Error: " +:+
                  reason r +:+ " for url: " +:+ url r in
  if (400 <=? status_code r)%N && (status_code r <? 500)%N
  then inl (Exn "HTTPError" (msg "Client"))
  else if (500 <=? status_code r)%N && (status_code r <? 600)%N
  then inl (Exn "HTTPError" (msg "Server"))
  else inr tt.

(** Opening [path] with mode [w] and writing [content]. *)
Definition write_file (path content : string) : M unit :=
  λ w, match w_io w path content with
       | None => (inr tt, set_fs (λ fs, <[path := content]> fs) w)
       | Some (e, None) => (inl e, w)
       | Some (e, Some residue) => (inl e, set_fs (λ fs, <[path := residue]> fs) w)
       end.

(** ** The stages *)

Definition markets_url : string := "https://api.coingecko.com/api/v3/coins/markets".

Definition markets_params : list (string * param_value) :=
  [("vs_currency", PStr "usd"); ("order", PStr "market_cap_desc");
   ("per_page", PInt 10); ("page", PInt 1); ("sparkline", PStr "false")].

Definition markets_request : http_request :=
  {| req_method := "GET"; req_url := markets_url; req_params := markets_params |}.

(** The [try] block of [extract_data]. *)
Definition extract_body : M value :=
  let* response := requests_get markets_url markets_params in
  lift (raise_for_status response) >>
  let* data := lift (json_body response) in
  logging_info "Data extraction successful." >>
  ret data.

Definition extract_data : M value :=
  try_except extract_body
    (λ e, logging_error ("Error in data extraction: " +:+ exn_str e) >> raise e).

Definition source_columns : list string :=
  ["id"; "symbol"; "current_price"; "market_cap"; "total_volume"].

Definition column_mapping : gmap string string :=
  list_to_map [("id", "crypto_name"); ("symbol", "symbol");
               ("current_price", "price_usd"); ("market_cap", "market_cap_usd");
               ("total_volume", "volume_usd")].

(** ** Sample inputs *)

Definition sample_clock (n : nat) : instant :=
  {| epoch_ns := 1762198500000000000 + Z.of_nat n * 250000000;
     local_time := {| year := 2026; month := 11; day := 3;
                      hour := 19; minute := 35; second := N.of_nat n |} |}.

(** A formatter for the sample runs: text as it stands, nothing for a
    missing cell. *)
Definition plain_native (col : list cell) (c : cell) : string :=
  match c with
  | Some (VStr s) => s
  | Some (VNum lit) => lit
  | Some (VBool true) => "True"
  | Some (VBool false) => "False"
  | _ => ""
  end.

Definition reject_irregular (data : value) (cols : list string) : exn + DataFrame :=
  inl (Exn "ValueError" "DataFrame constructor not properly called!").

Definition whole_seconds (start stop : Z) : string :=
  str_N (Z.to_N ((stop - start) / 1000000000)) +:+ ".00".

Definition bitcoin : gmap string value :=
  {[ "id" := VStr "bitcoin"; "symbol" := VStr "btc";
     "current_price" := VNum "65000"; "market_cap" := VNum "1.2e12";
     "total_volume" := VNum "3e10"; "market_cap_rank" := VNum "1" ]}.

Definition bitcoin_without_volume : gmap string value :=
  delete "total_volume" bitcoin.

Definition reply (status : N) (phrase : string) (body : exn + value) : http_response :=
  {| status_code := status; reason := phrase; url := markets_url; json_body := body |}.

(** A world with given files and a network that always gives the same
    answer; every write succeeds. *)
Definition sample_world (fs : gmap string string) (net : exn + http_response) : world :=
  {| w_fs := fs; w_log := []; w_stdout := []; w_sent := [];
     w_net := λ _ _, net; w_ticks := 0; w_clock := sample_clock;
     w_io := λ _ _, None |}.

Definition stale_snapshot : gmap string string :=
  {[ "/app/data/crypto_data.csv" := "crypto_name,symbol" +:+ os_linesep +:+
                                    "dogecoin,doge" +:+ os_linesep ]}.

(** No network: every request raises. *)
Definition world_offline : world :=
  sample_world stale_snapshot (inl (Exn "ConnectionError" "unreachable")).

(** The API answers with one record that has no [total_volume]. *)
Definition world_missing_volume : world :=
  sample_world ∅ (inr (reply 200 "OK" (inr (VList [VDict bitcoin_without_volume])))).

(** The API answers 500 with a body that is not JSON. *)
Definition reply_500 : http_response :=
  reply 500 "Internal Server Error" (inl (Exn "JSONDecodeError" "Expecting value")).

Definition world_500 : world := sample_world stale_snapshot (inr reply_500).


(** The API answers 300 with an empty array as body. *)
Definition reply_300 : http_response :=
  reply 300 "Multiple Choices" (inr (VList [])).

Definition world_300 : world := sample_world ∅ (inr reply_300).

(** The API answers 200 with an empty array. *)
Definition reply_empty : http_response := reply 200 "OK" (inr (VList [])).

Definition world_empty : world := sample_world stale_snapshot (inr reply_empty).

(** The API answers 200 with a number. *)
Definition world_number : world :=
  sample_world stale_snapshot (inr (reply 200 "OK" (inr (VNum "42")))).

(** The API answers 200 with the one record of the scenario. *)
Definition world_bitcoin : world :=
  sample_world ∅ (inr (reply 200 "OK" (inr (VList [VDict bitcoin])))).

(** The record of the scenario with a timestamp field of its own. *)
Definition bitcoin_with_timestamp : gmap string value :=
  <["timestamp" := VStr "1999-12-31 23:59:59"]> bitcoin.

Section Pipeline.

(** The directory of the script, [os.path.dirname(os.path.abspath(__file__))]. *)
Variable BASE_DIR : string.

(** The text pandas writes for a cell of a column (number formatting
    after dtype inference on the column, the empty string for a missing
    cell). *)
Variable to_native : list cell → cell → string.

(** [pd.DataFrame(data, columns=cols)] on a payload that is not a list
    of dicts. *)
Variable DataFrame_irregular : value → list string → exn + DataFrame.

(** The text of [f"{end_time - start_time:.2f}"] for two readings of
    [time.time()]. *)
Variable format_elapsed : Z → Z → string.

Definition DATA_DIR : string := os_path_join BASE_DIR "data".

Definition output_file : string := os_path_join DATA_DIR "crypto_data.csv".

(** The log directory and the log file of the module's logging setup. *)
Definition LOG_DIR : string := os_path_join BASE_DIR "logs".

Definition log_file : string := os_path_join LOG_DIR "crypto_etl.log".

Definition pd_DataFrame (data : value) (cols : list string) : exn + DataFrame :=
  match as_records data with
  | Some recs => inr (frame_of_records recs cols)
  | None => DataFrame_irregular data cols
  end.

(** The fields of row [i] as written. *)
Definition native_row (df : DataFrame) (i : nat) : list string :=
  (λ c : string * list cell, to_native c.2 (default None (c.2 !! i))) <$> df_columns df.

(** The text of [df.to_csv(path, index=False)]: the header, then one
    line per row. *)
Definition csv_text (df : DataFrame) : string :=
  csv_line (labels df) +:+
  String.concat "" ((λ i, csv_line (native_row df i)) <$> seq 0 (df_nrows df)).

Definition to_csv (df : DataFrame) (path : string) : M unit :=
  write_file path (csv_text df).

(** The [try] block of [transform_data]. *)
Definition transform_body (data : value) : M DataFrame :=
  let* df := lift (pd_DataFrame data source_columns) in
  let df := rename column_mapping df in
  let* now := datetime_now in
  let df := setitem "timestamp" (VStr (strftime now)) df in
  logging_info "Data transformation successful." >>
  ret df.

Definition transform_data (data : value) : M DataFrame :=
  try_except (transform_body data)
    (λ e, logging_error ("Error in data transformation: " +:+ exn_str e) >> raise e).

(** The [try] block of [load_data]. *)
Definition load_body (df : DataFrame) : M unit :=
  to_csv df output_file >>
  logging_info ("Data loading successful. Data saved to " +:+ output_file) >>
  print ("Data successfully saved to " +:+ output_file).

Definition load_data (df : DataFrame) : M unit :=
  try_except (load_body df)
    (λ e, logging_error ("Error in data loading: " +:+ exn_str e) >> raise e).

Definition etl_process : M unit :=
  let* start_time := time_time in
  logging_info "ETL process started." >>
  let* data := extract_data in
  let* df := transform_data data in
  load_data df >>
  let* end_time := time_time in
  logging_info ("ETL process completed in " +:+ format_elapsed start_time end_time +:+
                " seconds.").

(** The columns of a PriceRow, in order. *)
Definition output_columns : list string :=
  ["crypto_name"; "symbol"; "price_usd"; "market_cap_usd"; "volume_usd"; "timestamp"].

(** The row the specification describes for a record: each source field
    under its new name, then the timestamp. *)
Definition price_row (ts : string) (r : gmap string value) : list (string * cell) :=
  [("crypto_name", r !! "id"); ("symbol", r !! "symbol");
   ("price_usd", r !! "current_price"); ("market_cap_usd", r !! "market_cap");
   ("volume_usd", r !! "total_volume"); ("timestamp", Some (VStr ts))].

(** A record that has the five required fields. *)
Definition well_formed (r : gmap string value) : Prop :=
  Forall (λ c, is_Some (r !! c)) source_columns.

(** The header line of the snapshot. *)
Definition header_line : string :=
  "crypto_name,symbol,price_usd,market_cap_usd,volume_usd,timestamp" +:+ os_linesep.

(** The world after a stage handler has logged [e]. *)
Definition log_error (prefix : string) (e : exn) (w : world) : world :=
  set_log (λ l, l ++ [(ERROR, prefix +:+ exn_str e)]) w.

(** The frame [transform_data] builds from a sequence of records at
    timestamp [ts]. *)
Definition price_frame (ts : string) (recs : list (gmap string value)) : DataFrame :=
  {| df_nrows := length recs;
     df_columns :=
       [("crypto_name", (λ d : gmap string value, d !! "id") <$> recs);
        ("symbol", (λ d : gmap string value, d !! "symbol") <$> recs);
        ("price_usd", (λ d : gmap string value, d !! "current_price") <$> recs);
        ("market_cap_usd", (λ d : gmap string value, d !! "market_cap") <$> recs);
        ("volume_usd", (λ d : gmap string value, d !! "total_volume") <$> recs);
        ("timestamp", replicate (length recs) (Some (VStr ts)))] |}.

(** ** Worlds along a run *)

(** The world once the request has gone out. *)
Definition requested (w : world) : world :=
  set_sent (λ l, l ++ [markets_request]) w.

(** The world at the three points of a run where a stage has just
    succeeded. *)
Definition started (w : world) : world :=
  set_log (λ l, l ++ [(INFO, "ETL process started.")]) (set_ticks S w).

Definition extracted (w : world) : world :=
  set_log (λ l, l ++ [(INFO, "Data extraction successful.")]) (requested w).

Definition transformed (w : world) : world :=
  set_log (λ l, l ++ [(INFO, "Data transformation successful.")]) (set_ticks S w).

Definition loaded (content : string) (w : world) : world :=
  set_stdout (λ l, l ++ ["Data successfully saved to " +:+ output_file])
    (set_log (λ l, l ++ [(INFO, "Data loading successful. Data saved to " +:+ output_file)])
       (set_fs (λ fs, <[output_file := content]> fs) w)).

(** The timestamp a transform started in [w] stamps on its rows. *)
Definition stamp (w : world) : string :=
  strftime (local_time (w_clock w (w_ticks w))).

(** The world at the end of a run whose write left [w3]. *)
Definition completed (w w3 : world) : world :=
  set_log (λ l, l ++ [(INFO, "ETL process completed in " +:+
      format_elapsed (epoch_ns (w_clock w (w_ticks w)))
                     (epoch_ns (w_clock w3 (w_ticks w3))) +:+ " seconds.")])
    (set_ticks S w3).

(** The answer of the network to the request of a fetch started in [w]. *)
Definition answer (w : world) : exn + http_response :=
  w_net w (length (w_sent w)) markets_request.

(** The exception a fetch started in [w] meets, if any: the one the
    request raises, else the one the status check raises, else the one
    decoding the body raises. *)
Definition fetch_error (w : world) : option exn :=
  match answer w with
  | inl e => Some e
  | inr r =>
      match raise_for_status r with
      | inl e => Some e
      | inr _ => match json_body r with inl e => Some e | inr _ => None end
      end
  end.

(** ** Records and frames *)

Lemma as_records_dicts (recs : list (gmap string value)) :
  as_records (VList (VDict <$> recs)) = Some recs.
Proof. simpl. by apply mapM_fmap_Some. Qed.

Lemma transformed_frame (ts : string) (recs : list (gmap string value)) :
  setitem "timestamp" (VStr ts)
    (rename column_mapping (frame_of_records recs source_columns))
  = price_frame ts recs.
Proof.
  unfold setitem, price_frame, rename, frame_of_records, labels; simpl.
  replace (column_mapping !! "id") with (Some "crypto_name") by (by vm_compute).
  replace (column_mapping !! "symbol") with (Some "symbol") by (by vm_compute).
  replace (column_mapping !! "current_price") with (Some "price_usd") by (by vm_compute).
  replace (column_mapping !! "market_cap") with (Some "market_cap_usd") by (by vm_compute).
  replace (column_mapping !! "total_volume") with (Some "volume_usd") by (by vm_compute).
  done.
Qed.

Lemma fmap_lookup_seq {A B} (h : option A → B) (l : list A) :
  (λ i, h (l !! i)) <$> seq 0 (length l) = (λ x, h (Some x)) <$> l.
Proof.
  apply list_eq; intros i. rewrite !list_lookup_fmap.
  destruct (decide (i < length l)) as [Hlt|Hge].
  - rewrite lookup_seq_lt by done. simpl.
    destruct (lookup_lt_is_Some_2 l i Hlt) as [x Hx]. by rewrite Hx.
  - rewrite lookup_seq_ge by lia. rewrite lookup_ge_None_2 by lia. done.
Qed.

Lemma rows_price_frame (ts : string) (recs : list (gmap string value)) :
  rows (price_frame ts recs) = price_row ts <$> recs.
Proof.
  unfold rows, row, price_frame; simpl.
  rewrite <- (fmap_lookup_seq (λ o, price_row ts (default ∅ o)) recs).
  apply list_fmap_ext; intros i j Hj. apply lookup_seq in Hj as [-> Hlt].
  simpl. rewrite !list_lookup_fmap, lookup_replicate_2 by done.
  destruct (lookup_lt_is_Some_2 recs i Hlt) as [r ->]. done.
Qed.

(** ** Timestamps *)

Lemma N_range_check (P : N → bool) (lo len : N) :
  forallb (λ n, P (N.of_nat n)) (seq (N.to_nat lo) (N.to_nat len)) = true →
  ∀ n : N, (lo <= n < lo + len)%N → P n = true.
Proof.
  intros Hall n Hn. rewrite forallb_forall in Hall.
  rewrite <- (N2Nat.id n). apply Hall, in_seq. lia.
Qed.

Lemma zfill2_digits (n : N) :
  (n <= 99)%N → digits_exactly 2 (zfill 2 (str_N n)) = true.
Proof.
  intros Hn.
  apply (N_range_check (λ n, digits_exactly 2 (zfill 2 (str_N n))) 0 100);
    [by vm_compute | lia].
Qed.

Lemma zfill4_digits (n : N) :
  (1000 <= n <= 9999)%N → digits_exactly 4 (zfill 4 (str_N n)) = true.
Proof.
  intros Hn.
  apply (N_range_check (λ n, digits_exactly 4 (zfill 4 (str_N n))) 1000 9000);
    [by vm_compute | lia].
Qed.

Lemma matches_digits (k : nat) (s1 : string) :
  digits_exactly k s1 = true →
  ∀ p s2, matches_pattern (replicate k None ++ p) (s1 +:+ s2) = matches_pattern p s2.
Proof.
  unfold digits_exactly. revert k. induction s1 as [|c s1 IH]; intros k Hk p s2.
  - apply andb_prop in Hk as [Hlen _]. apply Nat.eqb_eq in Hlen.
    simpl in Hlen. by subst k.
  - apply andb_prop in Hk as [Hlen Hall]. apply Nat.eqb_eq in Hlen.
    simpl in Hlen, Hall. apply andb_prop in Hall as [Hc Hall].
    subst k. simpl. rewrite Hc. simpl. apply IH.
    by rewrite Nat.eqb_refl, Hall.
Qed.

Lemma matches_separator (c : ascii) (p : list (option ascii)) (s : string) :
  matches_pattern (Some c :: p) (String c EmptyString +:+ s) = matches_pattern p s.
Proof. simpl. by rewrite Ascii.eqb_refl. Qed.

Lemma matches_digits_end (k : nat) (s : string) :
  digits_exactly k s = true → matches_pattern (replicate k None) s = true.
Proof.
  intros Hk. pose proof (matches_digits k s Hk [] EmptyString) as H.
  rewrite app_nil_r in H. replace (s +:+ "") with s in H; [done|].
  clear. induction s as [|c s IH]; [done|].
  change (String c s = String c (s +:+ "")). by rewrite <- IH.
Qed.

Lemma strftime_is_timestamp (dt : datetime) :
  datetime_ok dt → is_timestamp (strftime dt) = true.
Proof.
  intros (Hy & Hm & Hd & Hh & Hmi & Hs).
  unfold is_timestamp, strftime, timestamp_pattern.
  change [None; None; None; None; Some "-"%char; None; None; Some "-"%char;
          None; None; Some " "%char; None; None; Some ":"%char; None; None;
          Some ":"%char; None; None]
    with (replicate 4 None ++ Some "-"%char ::
          replicate 2 None ++ Some "-"%char ::
          replicate 2 None ++ Some " "%char ::
          replicate 2 None ++ Some ":"%char ::
          replicate 2 None ++ Some ":"%char :: replicate 2 (@None ascii)).
  rewrite (matches_digits 4), matches_separator by (by apply zfill4_digits).
  rewrite (matches_digits 2), matches_separator by (apply zfill2_digits; lia).
  rewrite (matches_digits 2), matches_separator by (apply zfill2_digits; lia).
  rewrite (matches_digits 2), matches_separator by (apply zfill2_digits; lia).
  rewrite (matches_digits 2), matches_separator by (apply zfill2_digits; lia).
  apply matches_digits_end, zfill2_digits; lia.
Qed.

(** ** Assigning a column *)

Lemma column_setitem (label : string) (v : value) (df : DataFrame) :
  column (setitem label v df) label = Some (replicate (df_nrows df) (Some v)).
Proof.
  unfold column, setitem, labels; simpl.
  generalize (replicate (df_nrows df) (Some v)); intros filled.
  case_decide as Hin.
  - induction (df_columns df) as [|c cols IH]; [by apply elem_of_nil in Hin|].
    rewrite fmap_cons in *. cbn [list_find].
    apply elem_of_cons in Hin as [Hin|Hin].
    + repeat case_decide; simplify_eq/=; done.
    + specialize (IH Hin). destruct (list_find _ _) as [[i hit]|]; [|done].
      repeat case_decide; simplify_eq/=; done.
  - induction (df_columns df) as [|c cols IH].
    + simpl. by rewrite decide_True.
    + rewrite fmap_cons in Hin. apply not_elem_of_cons in Hin as [Hc Hin].
      rewrite <- app_comm_cons. cbn [list_find].
      specialize (IH Hin). destruct (list_find _ _) as [[i hit]|]; [|done].
      repeat case_decide; simplify_eq/=; done.
Qed.


(** ** The stages, step by step *)

Lemma extract_data_run (w : world) :
  extract_data w =
  match w_net w (length (w_sent w)) markets_request with
  | inl e => (inl e, log_error "Error in data extraction: " e (requested w))
  | inr r =>
      match raise_for_status r with
      | inl e => (inl e, log_error "Error in data extraction: " e (requested w))
      | inr _ =>
          match json_body r with
          | inl e => (inl e, log_error "Error in data extraction: " e (requested w))
          | inr data => (inr data, extracted w)
          end
      end
  end.
Proof.
  unfold extract_data, extract_body, try_except, bind, requests_get, lift; simpl.
  fold markets_request.
  destruct (w_net w (length (w_sent w)) markets_request) as [e|r]; [done|].
  destruct (raise_for_status r) as [e|[]]; [done|].
  destruct (json_body r) as [e|data]; done.
Qed.

Lemma transform_data_records (recs : list (gmap string value)) (w : world) :
  transform_data (VList (VDict <$> recs)) w
  = (inr (price_frame (stamp w) recs), transformed w).
Proof.
  unfold transform_data, transform_body, try_except, bind, lift, pd_DataFrame.
  rewrite as_records_dicts. simpl. by rewrite transformed_frame.
Qed.

Lemma transform_data_run (data : value) (w : world) :
  transform_data data w =
  match pd_DataFrame data source_columns with
  | inl e => (inl e, log_error "Error in data transformation: " e w)
  | inr df => (inr (setitem "timestamp" (VStr (stamp w)) (rename column_mapping df)),
               transformed w)
  end.
Proof.
  unfold transform_data, transform_body, try_except, bind, lift.
  destruct (pd_DataFrame data source_columns) as [e|df]; done.
Qed.

Lemma load_data_run (df : DataFrame) (w : world) :
  load_data df w =
  match w_io w output_file (csv_text df) with
  | None => (inr tt, loaded (csv_text df) w)
  | Some (e, None) => (inl e, log_error "Error in data loading: " e w)
  | Some (e, Some residue) =>
      (inl e, log_error "Error in data loading: " e
                (set_fs (λ fs, <[output_file := residue]> fs) w))
  end.
Proof.
  unfold load_data, load_body, try_except, bind, to_csv, write_file.
  destruct (w_io w output_file (csv_text df)) as [[e [residue|]]|]; done.
Qed.

Lemma etl_process_run (w : world) :
  etl_process w =
  match extract_data (started w) with
  | (inl e, w1) => (inl e, w1)
  | (inr data, w1) =>
      match transform_data data w1 with
      | (inl e, w2) => (inl e, w2)
      | (inr df, w2) =>
          match load_data df w2 with
          | (inl e, w3) => (inl e, w3)
          | (inr _, w3) =>
              (inr tt,
               set_log (λ l, l ++ [(INFO, "ETL process completed in " +:+
                   format_elapsed (epoch_ns (w_clock w (w_ticks w)))
                                  (epoch_ns (w_clock w3 (w_ticks w3))) +:+
                   " seconds.")]) (set_ticks S w3))
          end
      end
  end.
Proof.
  unfold etl_process, bind, time_time, logging_info; simpl. fold (started w).
  destruct (extract_data (started w)) as [[e|data] w1]; [done|].
  destruct (transform_data data w1) as [[e|df] w2]; [done|].
  destruct (load_data df w2) as [[e|[]] w3]; done.
Qed.

(** ** Properties of the Transformer *)

Lemma price_row_present (ts : string) (r : gmap string value) :
  well_formed r → Forall (λ kv : string * cell, is_Some kv.2) (price_row ts r).
Proof.
  unfold well_formed, source_columns, price_row. intros Hwf.
  repeat (apply Forall_cons in Hwf as [? Hwf]).
  repeat (apply Forall_cons; split; [done|]). apply Forall_nil_2.
Qed.

(** C3: on a well-formed sequence of MarketRecord objects the
    Transformer returns one row per record, in the order of the records;
    each row holds the five fields of its record under their new names
    (all present), then the timestamp. *)
Theorem transform_one_row_per_record (recs : list (gmap string value)) (w : world) :
  Forall well_formed recs →
  ∃ df w', transform_data (VList (VDict <$> recs)) w = (inr df, w') ∧
    df_nrows df = length recs ∧
    rows df = price_row (stamp w) <$> recs ∧
    (∀ i r, recs !! i = Some r → rows df !! i = Some (price_row (stamp w) r)) ∧
    Forall (Forall (λ kv : string * cell, is_Some kv.2)) (rows df).
Proof.
  intros Hwf. exists (price_frame (stamp w) recs), (transformed w).
  rewrite transform_data_records, rows_price_frame.
  split; [done|]. split; [done|]. split; [done|]. split.
  - intros i r Hr. by rewrite list_lookup_fmap, Hr.
  - apply Forall_fmap. eapply Forall_impl; [exact Hwf|].
    intros r Hr. by apply price_row_present.
Qed.

Lemma csv_text_price_frame (ts : string) (recs : list (gmap string value)) :
  csv_text (price_frame ts recs) =
  header_line +:+
  String.concat "" ((λ i, csv_line (native_row (price_frame ts recs) i)) <$>
                    seq 0 (length recs)).
Proof. done. Qed.

(** C4: on every sequence of records the frame the Transformer returns
    has exactly the columns crypto_name, symbol, price_usd,
    market_cap_usd, volume_usd, timestamp, in that order, every row has
    exactly these keys, and the text the Writer writes starts with the
    header line listing them in that order. *)
Theorem output_columns_exact (recs : list (gmap string value)) (w : world) :
  ∃ df w', transform_data (VList (VDict <$> recs)) w = (inr df, w') ∧
    labels df = output_columns ∧
    Forall (λ rw : list (string * cell), rw.*1 = output_columns) (rows df) ∧
    (∃ lines, csv_text df =
       ("crypto_name,symbol,price_usd,market_cap_usd,volume_usd,timestamp" +:+
        os_linesep) +:+ lines) ∧
    ∀ w2, fst (load_data df w2) = inr tt →
          w_fs (snd (load_data df w2)) !! output_file = Some (csv_text df).
Proof.
  exists (price_frame (stamp w) recs), (transformed w).
  rewrite transform_data_records, rows_price_frame.
  split; [done|]. split; [done|]. split; [|split].
  - apply Forall_fmap, Forall_forall. done.
  - eexists. apply csv_text_price_frame.
  - intros w2. rewrite load_data_run.
    destruct (w_io w2 output_file _) as [[e [residue|]]|]; [done|done|].
    intros _. simpl. apply lookup_insert_eq.
Qed.

Lemma row_setitem (label : string) (v : value) (df : DataFrame) (i : nat) :
  i < df_nrows df →
  (label, Some v) ∈ row (setitem label v df) i ∧
  ∀ c, (label, c) ∈ row (setitem label v df) i → c = Some v.
Proof.
  intros Hi. unfold row, setitem, labels; simpl.
  assert (Hfill : default None (replicate (df_nrows df) (Some v) !! i) = Some v)
    by (by rewrite lookup_replicate_2).
  case_decide as Hin.
  - rewrite <- list_fmap_compose. split.
    + apply list_elem_of_fmap in Hin as [c [-> Hc]].
      apply list_elem_of_fmap. exists c. split; [|done].
      simpl. rewrite decide_True by done. cbn [fst snd]. by rewrite Hfill.
    + intros c Hc. apply list_elem_of_fmap in Hc as [c0 [Heq _]].
      cbn [fst snd compose] in Heq. case_decide; cbn [fst snd] in Heq.
      * rewrite Hfill in Heq. by simplify_eq.
      * by simplify_eq.
  - rewrite fmap_app. simpl. rewrite Hfill. split.
    + apply elem_of_app. right. apply list_elem_of_singleton. done.
    + intros c Hc. apply elem_of_app in Hc as [Hc|Hc].
      * exfalso. apply Hin. apply list_elem_of_fmap in Hc as [c0 [Heq Hc0]].
        apply list_elem_of_fmap. exists c0. by simplify_eq/=.
      * apply list_elem_of_singleton in Hc. by simplify_eq.
Qed.

(** C2: in every invocation the Transformer accepts, the clock is read
    exactly once, every output row carries that one reading as its
    timestamp, and the timestamp has the shape YYYY-MM-DD HH:MM:SS. *)
Theorem timestamp_sampled_once (data : value) (w : world) (df : DataFrame) (w' : world) :
  transform_data data w = (inr df, w') →
  datetime_ok (local_time (w_clock w (w_ticks w))) →
  w_ticks w' = S (w_ticks w) ∧
  column df "timestamp" = Some (replicate (df_nrows df) (Some (VStr (stamp w)))) ∧
  (∀ i, i < df_nrows df →
        ("timestamp", Some (VStr (stamp w))) ∈ row df i ∧
        ∀ c, ("timestamp", c) ∈ row df i → c = Some (VStr (stamp w))) ∧
  is_timestamp (stamp w) = true.
Proof.
  intros Hrun Hclock. rewrite transform_data_run in Hrun.
  destruct (pd_DataFrame data source_columns) as [e|df0]; [done|].
  injection Hrun as <- <-.
  split; [done|]. split; [by rewrite column_setitem|]. split.
  - intros i Hi. by apply row_setitem.
  - by apply strftime_is_timestamp.
Qed.

(** ** Runs of the driver *)

Lemma etl_process_fetched (recs : list (gmap string value)) (w : world)
    (resp : http_response) :
  answer w = inr resp →
  raise_for_status resp = inr tt →
  json_body resp = inr (VList (VDict <$> recs)) →
  let w1 := extracted (started w) in
  etl_process w =
  match load_data (price_frame (stamp w1) recs) (transformed w1) with
  | (inl e, w3) => (inl e, w3)
  | (inr _, w3) => (inr tt, completed w w3)
  end.
Proof.
  intros Hnet Hstatus Hbody w1. rewrite etl_process_run, extract_data_run.
  change (w_net (started w) (length (w_sent (started w))) markets_request)
    with (answer w).
  rewrite Hnet, Hstatus, Hbody. fold w1. rewrite transform_data_records.
  destruct (load_data _ _) as [[e|[]] w3]; done.
Qed.

Lemma etl_process_written (recs : list (gmap string value)) (w : world)
    (resp : http_response) :
  answer w = inr resp →
  raise_for_status resp = inr tt →
  json_body resp = inr (VList (VDict <$> recs)) →
  let w1 := extracted (started w) in
  let df := price_frame (stamp w1) recs in
  w_io w output_file (csv_text df) = None →
  etl_process w = (inr tt, completed w (loaded (csv_text df) (transformed w1))).
Proof.
  intros Hnet Hstatus Hbody w1 df Hio.
  rewrite (etl_process_fetched recs w resp) by done. fold w1 df.
  rewrite load_data_run.
  change (w_io (transformed w1)) with (w_io w). by rewrite Hio.
Qed.

(** C1, as the code has it: a record that lacks a required field does
    not make the Transformer fail.  The Transformer returns one row per
    record, with a missing cell in the column of the lacking field, and
    a run that fetched these records and can write its file ends
    normally with the snapshot holding the text of that frame. *)
Theorem missing_field_gives_missing_cell (recs : list (gmap string value))
    (i : nat) (r : gmap string value) (field label : string) :
  recs !! i = Some r →
  column_mapping !! field = Some label →
  r !! field = None →
  (∀ w, ∃ df w',
     transform_data (VList (VDict <$> recs)) w = (inr df, w') ∧
     rows df = price_row (stamp w) <$> recs ∧
     ∃ rw, rows df !! i = Some rw ∧ (label, None) ∈ rw) ∧
  (∀ w resp,
     answer w = inr resp →
     raise_for_status resp = inr tt →
     json_body resp = inr (VList (VDict <$> recs)) →
     ∃ df, rows df = price_row (stamp (extracted (started w))) <$> recs ∧
       (w_io w output_file (csv_text df) = None →
        fst (etl_process w) = inr tt ∧
        w_fs (snd (etl_process w)) !! output_file = Some (csv_text df))).
Proof.
  intros Hi Hmap Hmissing. split.
  - intros w. exists (price_frame (stamp w) recs), (transformed w).
    rewrite transform_data_records, rows_price_frame.
    split; [done|]. split; [done|].
    exists (price_row (stamp w) r). rewrite list_lookup_fmap, Hi.
    split; [done|]. unfold price_row.
    apply elem_of_list_to_map_2 in Hmap.
    rewrite !elem_of_cons, elem_of_nil in Hmap.
    destruct Hmap as [Hm|[Hm|[Hm|[Hm|[Hm|[]]]]]];
      injection Hm as -> ->; rewrite Hmissing; rewrite !elem_of_cons; auto 10.
  - intros w resp Hnet Hstatus Hbody.
    exists (price_frame (stamp (extracted (started w))) recs).
    rewrite rows_price_frame. split; [done|]. intros Hio.
    rewrite (etl_process_written recs w resp) by done.
    split; [done|]. simpl. apply lookup_insert_eq.
Qed.

(** ** Failures *)






Lemma extract_data_raises (w : world) (e : exn) :
  fetch_error w = Some e →
  extract_data w = (inl e, log_error "Error in data extraction: " e (requested w)).
Proof.
  unfold fetch_error. rewrite extract_data_run. fold (answer w).
  destruct (answer w) as [e0|r]; [by intros [= ->]|].
  destruct (raise_for_status r) as [e0|[]]; [by intros [= ->]|].
  destruct (json_body r) as [e0|data]; [by intros [= ->]|done].
Qed.

Lemma raise_for_status_error (r : http_response) :
  (400 <= status_code r < 600)%N →
  ∃ e, raise_for_status r = inl e ∧ exn_class e = "HTTPError".
Proof.
  intros Hrange. unfold raise_for_status.
  destruct (400 <=? status_code r)%N eqn:H4; [|apply N.leb_gt in H4; lia].
  destruct (status_code r <? 500)%N eqn:H5; simpl; [by eexists|].
  destruct (500 <=? status_code r)%N eqn:H6;
    [|apply N.leb_gt in H6; apply N.ltb_ge in H5; lia].
  destruct (status_code r <? 600)%N eqn:H7; simpl; [by eexists|].
  apply N.ltb_ge in H7. lia.
Qed.

(** C6, as the code has it: when the request raises, or the status is
    400 to 599, or decoding the body raises, [extract_data] raises that
    very exception; the world it leaves has exactly one more request
    sent and one more log record, the ERROR record with the cause; no
    data is returned; and the run started in that world ends there with
    the same exception. *)
Theorem extract_failure (w : world) :
  (∃ e0, answer w = inl e0) ∨
  (∃ r, answer w = inr r ∧
        ((400 <= status_code r < 600)%N ∨ ∃ e0, json_body r = inl e0)) →
  ∃ e, extract_data w =
         (inl e, log_error "Error in data extraction: " e (requested w)) ∧
       w_sent (snd (extract_data w)) = w_sent w ++ [markets_request] ∧
       w_log (snd (extract_data w)) =
         w_log w ++ [(ERROR, "Error in data extraction: " +:+ exn_str e)] ∧
       etl_process w =
         (inl e, log_error "Error in data extraction: " e (requested (started w))) ∧
       (answer w = inl e ∨
        ∃ r, answer w = inr r ∧
             (raise_for_status r = inl e ∧ exn_class e = "HTTPError" ∨
              raise_for_status r = inr tt ∧ json_body r = inl e)).
Proof.
  intros Hbad.
  assert (∃ e, fetch_error w = Some e ∧
               (answer w = inl e ∨
                ∃ r, answer w = inr r ∧
                     (raise_for_status r = inl e ∧ exn_class e = "HTTPError" ∨
                      raise_for_status r = inr tt ∧ json_body r = inl e)))
    as (e & Herr & Hcause).
  { unfold fetch_error. destruct Hbad as [[e0 Hnet]|[r [Hnet Hbad]]]; rewrite Hnet.
    { exists e0. split; [done|]. by left. }
    destruct Hbad as [Hrange|[e0 Hbody]].
    - destruct (raise_for_status_error r Hrange) as (e & Hstatus & Hclass).
      rewrite Hstatus. exists e. split; [done|]. right. exists r. by auto.
    - destruct (raise_for_status r) as [e|[]] eqn:Hstatus.
      + exists e. split; [done|]. right. exists r. split; [done|]. left.
        split; [done|]. unfold raise_for_status in Hstatus.
        repeat case_match; by simplify_eq.
      + rewrite Hbody. exists e0. split; [done|]. right. exists r. by auto. }
  exists e. rewrite (extract_data_raises w e Herr).
  split; [done|]. split; [done|]. split; [done|]. split; [|done].
  rewrite etl_process_run. by rewrite (extract_data_raises (started w) e Herr).
Qed.

(** C8: every invocation of the Fetcher sends exactly one request, a
    GET to the markets endpoint with the five fixed query parameters,
    whatever the world it runs in and however the call ends. *)
Theorem extract_sends_one_fixed_request (w : world) :
  w_sent (snd (extract_data w)) = w_sent w ++ [markets_request] ∧
  markets_request =
    {| req_method := "GET";
       req_url := "https://api.coingecko.com/api/v3/coins/markets";
       req_params := [("vs_currency", PStr "usd"); ("order", PStr "market_cap_desc");
                      ("per_page", PInt 10); ("page", PInt 1);
                      ("sparkline", PStr "false")] |}.
Proof.
  split; [|done]. rewrite extract_data_run.
  destruct (w_net _ _ _) as [e|r]; [done|].
  destruct (raise_for_status r) as [e|[]]; [done|].
  destruct (json_body r) as [e|data]; done.
Qed.

(** ** Properties of the Writer *)

Lemma load_data_returns (df : DataFrame) (w : world) :
  fst (load_data df w) = inr tt →
  load_data df w = (inr tt, loaded (csv_text df) w).
Proof.
  rewrite load_data_run.
  destruct (w_io w output_file (csv_text df)) as [[e [residue|]]|]; done.
Qed.

(** C7: a write that succeeds leaves the destination holding the text
    of the frame it was given and nothing else, whether the file existed
    before or not and whatever it held; the other files are untouched. *)
Theorem load_data_replaces_snapshot (df : DataFrame) (w : world) :
  w_io w output_file (csv_text df) = None →
  fst (load_data df w) = inr tt ∧
  w_fs (snd (load_data df w)) = <[output_file := csv_text df]> (w_fs w) ∧
  w_fs (snd (load_data df w)) !! output_file = Some (csv_text df) ∧
  ∀ path, path ≠ output_file →
          w_fs (snd (load_data df w)) !! path = w_fs w !! path.
Proof.
  intros Hio. rewrite load_data_run, Hio. simpl.
  split; [done|]. split; [done|]. split; [apply lookup_insert_eq|].
  intros path Hpath. by apply lookup_insert_ne.
Qed.

(** C9: writing the same frame twice in a row leaves, after each of
    the two writes, the snapshot holding exactly the CSV text of that
    frame: the content after the second write is the content after the
    first, byte for byte, and the second write changes no file. *)
Theorem load_data_twice (df : DataFrame) (w : world) :
  fst (load_data df w) = inr tt →
  fst (load_data df (snd (load_data df w))) = inr tt →
  w_fs (snd (load_data df w)) !! output_file = Some (csv_text df) ∧
  w_fs (snd (load_data df (snd (load_data df w)))) !! output_file
  = Some (csv_text df) ∧
  w_fs (snd (load_data df (snd (load_data df w)))) !! output_file
  = w_fs (snd (load_data df w)) !! output_file ∧
  w_fs (snd (load_data df (snd (load_data df w)))) = w_fs (snd (load_data df w)).
Proof.
  intros H1 H2. apply load_data_returns in H2. rewrite H2.
  apply load_data_returns in H1. rewrite H1. simpl.
  rewrite insert_insert_eq, lookup_insert_eq. done.
Qed.

(** C10: when the API returns an empty array, the Transformer returns a
    frame of zero rows, the run ends normally without any ERROR record,
    and the snapshot holds the header line and nothing else. *)
Theorem empty_fetch_writes_header_only (w : world) (resp : http_response) :
  answer w = inr resp →
  status_code resp = 200%N →
  json_body resp = inr (VList []) →
  w_io w output_file header_line = None →
  (∃ df w', transform_data (VList []) (extracted (started w)) = (inr df, w') ∧
            df_nrows df = 0 ∧ rows df = [] ∧ csv_text df = header_line) ∧
  fst (etl_process w) = inr tt ∧
  w_fs (snd (etl_process w)) !! output_file =
    Some ("crypto_name,symbol,price_usd,market_cap_usd,volume_usd,timestamp" +:+
          os_linesep) ∧
  Forall (λ entry : level * string, entry.1 = INFO)
         (drop (length (w_log w)) (w_log (snd (etl_process w)))).
Proof.
  intros Hnet Hstatus Hbody Hio. split.
  - exists (price_frame (stamp (extracted (started w))) []), (transformed (extracted (started w))).
    by rewrite (transform_data_records []).
  - assert (Hok : raise_for_status resp = inr tt)
      by (unfold raise_for_status; by rewrite Hstatus).
    rewrite (etl_process_written [] w resp) by done. simpl.
    split; [done|]. split; [apply lookup_insert_eq|].
    rewrite <- !app_assoc. rewrite drop_app_length. simpl.
    repeat (apply Forall_cons; split; [done|]). apply Forall_nil_2.
Qed.

(** ** Paths *)

Lemma append_cons (c : ascii) (s t : string) :
  String c s +:+ t = String c (s +:+ t).
Proof. done. Qed.

Lemma append_assoc (s t u : string) : (s +:+ t) +:+ u = s +:+ t +:+ u.
Proof.
  induction s as [|c s IH]; [done|]. by rewrite !append_cons, IH.
Qed.

Lemma append_inj_r (p s t : string) : p +:+ s = p +:+ t → s = t.
Proof.
  induction p as [|c p IH]; [done|]. rewrite !append_cons. intros [= H]. auto.
Qed.

Lemma list_ascii_append (s t : string) :
  list_ascii_of_string (s +:+ t) = list_ascii_of_string s ++ list_ascii_of_string t.
Proof.
  induction s as [|c s IH]; [done|]. rewrite append_cons. simpl. by rewrite IH.
Qed.

(** Joining a simple name to a directory puts the name at the end. *)
Lemma os_path_join_name (a : string) (c : ascii) (name : string) :
  c ≠ "/"%char →
  os_path_join a (String c name) =
    (if (String.eqb a "" || ends_with_slash a)%bool then a else a +:+ "/") +:+
    String c name.
Proof.
  intros Hc. unfold os_path_join.
  destruct (String.eqb a "" || ends_with_slash a)%bool.
  - destruct c as [[] [] [] [] [] [] [] []]; done.
  - rewrite append_assoc. destruct c as [[] [] [] [] [] [] [] []]; done.
Qed.

Lemma join_not_dir (p : string) (c : ascii) (name : string) :
  last (list_ascii_of_string (String c name)) ≠ Some "/"%char →
  (String.eqb (p +:+ String c name) "" || ends_with_slash (p +:+ String c name))%bool
  = false.
Proof.
  intros Hlast. apply orb_false_iff. split.
  - destruct p; done.
  - unfold ends_with_slash. rewrite list_ascii_append, last_app.
    destruct (last (list_ascii_of_string (String c name))) as [d|] eqn:Hd.
    + destruct (Ascii.eqb_spec d "/"); [|done]. by subst.
    + by apply last_None in Hd.
Qed.

Lemma DATA_DIR_eq :
  DATA_DIR =
  (if (String.eqb BASE_DIR "" || ends_with_slash BASE_DIR)%bool
   then BASE_DIR else BASE_DIR +:+ "/") +:+ "data".
Proof. unfold DATA_DIR. by rewrite os_path_join_name. Qed.

Lemma LOG_DIR_eq :
  LOG_DIR =
  (if (String.eqb BASE_DIR "" || ends_with_slash BASE_DIR)%bool
   then BASE_DIR else BASE_DIR +:+ "/") +:+ "logs".
Proof. unfold LOG_DIR. by rewrite os_path_join_name. Qed.

(** X1: wherever the script lives, the snapshot and the log sit
    under the script's directory: the snapshot is data/crypto_data.csv
    and the log is logs/crypto_etl.log below it (a separator is added
    unless the directory is empty or ends with one).  The snapshot is
    directly inside the data directory, the log directly inside the
    logs directory, the two directories differ and so do the two files:
    the Writer cannot overwrite the log. *)
Theorem snapshot_and_log_paths :
  output_file =
    (if (String.eqb BASE_DIR "" || ends_with_slash BASE_DIR)%bool
     then BASE_DIR else BASE_DIR +:+ "/") +:+ "data/crypto_data.csv" ∧
  log_file =
    (if (String.eqb BASE_DIR "" || ends_with_slash BASE_DIR)%bool
     then BASE_DIR else BASE_DIR +:+ "/") +:+ "logs/crypto_etl.log" ∧
  output_file = DATA_DIR +:+ "/crypto_data.csv" ∧
  log_file = LOG_DIR +:+ "/crypto_etl.log" ∧
  DATA_DIR ≠ LOG_DIR ∧
  output_file ≠ log_file.
Proof.
  assert (Hout : output_file = DATA_DIR +:+ "/crypto_data.csv").
  { unfold output_file. rewrite os_path_join_name by done.
    rewrite DATA_DIR_eq, join_not_dir by done. by rewrite append_assoc. }
  assert (Hlog : log_file = LOG_DIR +:+ "/crypto_etl.log").
  { unfold log_file. rewrite os_path_join_name by done.
    rewrite LOG_DIR_eq, join_not_dir by done. by rewrite append_assoc. }
  split; [by rewrite Hout, DATA_DIR_eq, append_assoc|].
  split; [by rewrite Hlog, LOG_DIR_eq, append_assoc|].
  split; [done|]. split; [done|]. split.
  - rewrite DATA_DIR_eq, LOG_DIR_eq. intros H. by apply append_inj_r in H.
  - rewrite Hout, Hlog, DATA_DIR_eq, LOG_DIR_eq, !append_assoc.
    intros H. by apply append_inj_r in H.
Qed.

(** ** What each stage touches *)

(** X2: a call of [extract_data] writes no file, prints nothing and
    does not read the clock; it appends exactly one log record, an INFO
    record when it returns and an ERROR record when it raises. *)
Theorem extract_data_footprint (w : world) :
  w_fs (snd (extract_data w)) = w_fs w ∧
  w_stdout (snd (extract_data w)) = w_stdout w ∧
  w_ticks (snd (extract_data w)) = w_ticks w ∧
  ∃ entry, w_log (snd (extract_data w)) = w_log w ++ [entry] ∧
           (entry.1 = INFO ↔ ∃ data, fst (extract_data w) = inr data).
Proof.
  rewrite extract_data_run. destruct (w_net _ _ _) as [e|r].
  { repeat (split; [done|]). eexists. split; [done|]. simpl. split; [done|].
    by intros [data ?]. }
  destruct (raise_for_status r) as [e|[]].
  { repeat (split; [done|]). eexists. split; [done|]. simpl. split; [done|].
    by intros [data ?]. }
  destruct (json_body r) as [e|data].
  { repeat (split; [done|]). eexists. split; [done|]. simpl. split; [done|].
    by intros [data ?]. }
  repeat (split; [done|]). eexists. split; [done|]. simpl. split; [|done].
  intros _. by exists data.
Qed.

(** X3: a call of [transform_data] writes no file, prints nothing and
    makes no request; it appends exactly one log record; it reads the
    clock exactly once when it returns a frame and not at all when it
    raises. *)
Theorem transform_data_footprint (data : value) (w : world) :
  w_fs (snd (transform_data data w)) = w_fs w ∧
  w_stdout (snd (transform_data data w)) = w_stdout w ∧
  w_sent (snd (transform_data data w)) = w_sent w ∧
  (∃ entry, w_log (snd (transform_data data w)) = w_log w ++ [entry] ∧
            (entry.1 = INFO ↔ ∃ df, fst (transform_data data w) = inr df)) ∧
  w_ticks (snd (transform_data data w)) =
    match fst (transform_data data w) with
    | inr _ => S (w_ticks w)
    | inl _ => w_ticks w
    end.
Proof.
  rewrite transform_data_run. destruct (pd_DataFrame _ _) as [e|df]; simpl.
  - repeat (split; [done|]). split; [|done]. eexists. split; [done|]. simpl.
    split; [done|]. by intros [df ?].
  - repeat (split; [done|]). split; [|done]. eexists. split; [done|]. simpl.
    split; [|done]. intros _. by eexists.
Qed.


(** ** The Fetcher's result *)

Lemma raise_for_status_ok (r : http_response) :
  ¬ (400 <= status_code r < 600)%N → raise_for_status r = inr tt.
Proof.
  intros Hrange. unfold raise_for_status.
  destruct (400 <=? status_code r)%N eqn:H4; simpl.
  - apply N.leb_le in H4.
    destruct (status_code r <? 500)%N eqn:H5; [apply N.ltb_lt in H5; lia|].
    destruct (500 <=? status_code r)%N eqn:H6; simpl; [|done].
    destruct (status_code r <? 600)%N eqn:H7; [apply N.ltb_lt in H7; lia|done].
  - apply N.leb_gt in H4.
    destruct (500 <=? status_code r)%N eqn:H6; simpl; [|done].
    apply N.leb_le in H6. lia.
Qed.

(** X5: [extract_data] returns a value exactly when the request gave a
    response whose status is outside 400 to 599 and whose body decodes;
    what it returns is the decoded body itself, whatever its shape or
    size. *)
Theorem extract_data_returns_body (w : world) (data : value) :
  fst (extract_data w) = inr data ↔
  ∃ r, answer w = inr r ∧ ¬ (400 <= status_code r < 600)%N ∧ json_body r = inr data.
Proof.
  rewrite extract_data_run. fold (answer w). split.
  - destruct (answer w) as [e|r]; [done|].
    destruct (decide (400 <= status_code r < 600)%N) as [Hrange|Hrange].
    { destruct (raise_for_status_error r Hrange) as (e & -> & _). done. }
    rewrite (raise_for_status_ok r Hrange).
    destruct (json_body r) as [e|body] eqn:Hbody; [done|].
    simpl. intros [= ->]. by exists r.
  - intros (r & -> & Hrange & Hbody).
    by rewrite (raise_for_status_ok r Hrange), Hbody.
Qed.

(** ** The Transformer reads five fields only *)

Lemma fmap_Forall2_ext {A B} (R : A → A → Prop) (f : A → B) (l1 l2 : list A) :
  (∀ x y, R x y → f x = f y) → Forall2 R l1 l2 → f <$> l1 = f <$> l2.
Proof.
  intros Hf. induction 1 as [|x y l1 l2 Hxy _ IH]; [done|].
  rewrite !fmap_cons. by rewrite (Hf x y Hxy), IH.
Qed.

(** X6: the frame the Transformer returns depends on the five source
    fields of the records only: two sequences of records that agree,
    record by record, on id, symbol, current_price, market_cap and
    total_volume give the same result, whatever else the records hold
    (a timestamp field of their own included). *)
Theorem transform_ignores_other_fields (recs1 recs2 : list (gmap string value))
    (w : world) :
  Forall2 (λ r1 r2 : gmap string value,
             ∀ c, c ∈ source_columns → r1 !! c = r2 !! c) recs1 recs2 →
  transform_data (VList (VDict <$> recs1)) w
  = transform_data (VList (VDict <$> recs2)) w.
Proof.
  intros Hagree. rewrite !transform_data_records. f_equal. f_equal.
  unfold price_frame. rewrite (Forall2_length _ _ _ Hagree).
  assert (Hcol : ∀ c, c ∈ source_columns →
            (λ d : gmap string value, d !! c) <$> recs1 =
            (λ d : gmap string value, d !! c) <$> recs2).
  { intros c Hc. eapply fmap_Forall2_ext; [|exact Hagree].
    intros r1 r2 Hr. by apply Hr. }
  unfold source_columns in Hcol.
  rewrite (Hcol "id"), (Hcol "symbol"), (Hcol "current_price"),
    (Hcol "market_cap"), (Hcol "total_volume");
    [done|rewrite !elem_of_cons; auto 10..].
Qed.

(** ** Whole runs *)

(** X7: a run that returns has appended to the log exactly five INFO
    records, in the order started, extraction, transformation, loading
    (with the snapshot path), completed (with the time elapsed between
    the first and the third clock reading of the run); it has printed
    exactly the confirmation line, made exactly one request, read the
    clock exactly three times, written the snapshot and changed no
    other file. *)
Theorem successful_run_effects (w : world) :
  fst (etl_process w) = inr tt →
  w_log (snd (etl_process w)) =
    w_log w ++
    [(INFO, "ETL process started.");
     (INFO, "Data extraction successful.");
     (INFO, "Data transformation successful.");
     (INFO, "Data loading successful. Data saved to " +:+ output_file);
     (INFO, "ETL process completed in " +:+
            format_elapsed (epoch_ns (w_clock w (w_ticks w)))
                           (epoch_ns (w_clock w (2 + w_ticks w))) +:+
            " seconds.")] ∧
  w_stdout (snd (etl_process w)) =
    w_stdout w ++ ["Data successfully saved to " +:+ output_file] ∧
  w_sent (snd (etl_process w)) = w_sent w ++ [markets_request] ∧
  w_ticks (snd (etl_process w)) = 3 + w_ticks w ∧
  is_Some (w_fs (snd (etl_process w)) !! output_file) ∧
  ∀ path, path ≠ output_file →
          w_fs (snd (etl_process w)) !! path = w_fs w !! path.
Proof.
  rewrite etl_process_run, extract_data_run.
  destruct (w_net _ _ _) as [e|r]; [done|].
  destruct (raise_for_status r) as [e|[]]; [done|].
  destruct (json_body r) as [e|data]; [done|].
  rewrite transform_data_run.
  destruct (pd_DataFrame data source_columns) as [e|df]; [done|].
  rewrite load_data_run.
  destruct (w_io _ _ _) as [[e [residue|]]|]; [done|done|].
  intros _. simpl. rewrite <- !app_assoc. simpl.
  split; [done|]. split; [done|]. split; [done|]. split; [done|]. split.
  - rewrite lookup_insert_eq. by eexists.
  - intros path Hpath. by apply lookup_insert_ne.
Qed.


(** X9: in a run that fetched a sequence of records and returns, the
    snapshot holds the text of a frame whose rows are the records' rows
    stamped with the second clock reading of the run, the one taken by
    the Transformer after the fetch; the run's start and end readings
    are not what is written. *)
Theorem snapshot_carries_transform_time (recs : list (gmap string value))
    (w : world) (resp : http_response) :
  answer w = inr resp →
  raise_for_status resp = inr tt →
  json_body resp = inr (VList (VDict <$> recs)) →
  fst (etl_process w) = inr tt →
  ∃ df, rows df = price_row (strftime (local_time (w_clock w (S (w_ticks w))))) <$> recs ∧
        w_fs (snd (etl_process w)) !! output_file = Some (csv_text df).
Proof.
  intros Hnet Hstatus Hbody.
  rewrite (etl_process_fetched recs w resp) by done.
  rewrite load_data_run.
  destruct (w_io _ _ _) as [[e [residue|]]|]; [done|done|]. intros _.
  exists (price_frame (stamp (extracted (started w))) recs).
  rewrite rows_price_frame. split; [done|]. simpl. apply lookup_insert_eq.
Qed.

(** ** Timestamps identify the second *)

Lemma N_of_digits_str_N (n : N) : N_of_digits (str_N n) = n.
Proof.
  unfold N_of_digits, str_N, NilZero.string_of_uint.
  assert (Hnil : N.to_uint n ≠ Decimal.Nil).
  { destruct n; [done|]. apply DecimalPos.Unsigned.to_uint_nonnil. }
  replace (match N.to_uint n with
           | Decimal.Nil => "0"
           | _ => NilEmpty.string_of_uint (N.to_uint n)
           end) with (NilEmpty.string_of_uint (N.to_uint n))
    by (by destruct (N.to_uint n)).
  rewrite NilEmpty.usu. apply DecimalN.Unsigned.of_to.
Qed.

Lemma N_of_digits_zero (s : string) :
  N_of_digits (String "0" s) = N_of_digits s.
Proof.
  unfold N_of_digits. simpl. by destruct (NilEmpty.uint_of_string s).
Qed.

Lemma N_of_digits_zfill (k : nat) (n : N) : N_of_digits (zfill k (str_N n)) = n.
Proof.
  unfold zfill. induction (k - String.length (str_N n))%nat as [|m IH].
  - apply N_of_digits_str_N.
  - simpl. rewrite append_cons, N_of_digits_zero. exact IH.
Qed.

Lemma digits_exactly_length (k : nat) (s : string) :
  digits_exactly k s = true → String.length s = k.
Proof.
  unfold digits_exactly. intros H. apply andb_prop in H as [H _].
  by apply Nat.eqb_eq in H.
Qed.

Lemma append_same_length (s1 s2 t1 t2 : string) :
  String.length s1 = String.length s2 →
  s1 +:+ t1 = s2 +:+ t2 → s1 = s2 ∧ t1 = t2.
Proof.
  revert s2. induction s1 as [|c s1 IH]; intros [|d s2] Hlen; try done.
  rewrite !append_cons. intros [= -> H]. injection Hlen as Hlen.
  destruct (IH s2 Hlen H) as [-> ->]. done.
Qed.

Lemma separator_inj (c : ascii) (s t : string) :
  String c EmptyString +:+ s = String c EmptyString +:+ t → s = t.
Proof. apply append_inj_r. Qed.

(** X10: the format of the timestamp loses nothing down to the second:
    two clock readings that give the same timestamp have the same year,
    month, day, hour, minute and second. *)
Theorem strftime_injective (dt1 dt2 : datetime) :
  datetime_ok dt1 → datetime_ok dt2 →
  strftime dt1 = strftime dt2 → dt1 = dt2.
Proof.
  intros (Hy1 & Hm1 & Hd1 & Hh1 & Hmi1 & Hs1) (Hy2 & Hm2 & Hd2 & Hh2 & Hmi2 & Hs2).
  unfold strftime. intros H.
  apply append_same_length in H as [Hy H];
    [|by rewrite !(digits_exactly_length 4) by (by apply zfill4_digits)].
  apply separator_inj in H.
  apply append_same_length in H as [Hm H];
    [|by rewrite !(digits_exactly_length 2) by (apply zfill2_digits; lia)].
  apply separator_inj in H.
  apply append_same_length in H as [Hd H];
    [|by rewrite !(digits_exactly_length 2) by (apply zfill2_digits; lia)].
  apply separator_inj in H.
  apply append_same_length in H as [Hh H];
    [|by rewrite !(digits_exactly_length 2) by (apply zfill2_digits; lia)].
  apply separator_inj in H.
  apply append_same_length in H as [Hmi Hs];
    [|by rewrite !(digits_exactly_length 2) by (apply zfill2_digits; lia)].
  apply separator_inj in Hs.
  apply (f_equal N_of_digits) in Hy, Hm, Hd, Hh, Hmi, Hs.
  rewrite !N_of_digits_zfill in Hy, Hm, Hd, Hh, Hmi, Hs.
  destruct dt1, dt2; simpl in *. by subst.
Qed.

(** ** The snapshot, line by line *)

(** X11: for a sequence of records the text the Writer gets to write is
    the header line followed by one line per record, in the order of
    the records; the line of a record is made of six fields, the
    written form of its id, symbol, current_price, market_cap and
    total_volume cells and of the timestamp cell, in that order. *)
Theorem snapshot_one_line_per_record (recs : list (gmap string value)) (w : world) :
  ∃ df w', transform_data (VList (VDict <$> recs)) w = (inr df, w') ∧
    csv_text df =
    header_line +:+
    String.concat ""
      ((λ r : gmap string value,
          csv_line
            [to_native ((λ d : gmap string value, d !! "id") <$> recs) (r !! "id");
             to_native ((λ d : gmap string value, d !! "symbol") <$> recs)
               (r !! "symbol");
             to_native ((λ d : gmap string value, d !! "current_price") <$> recs)
               (r !! "current_price");
             to_native ((λ d : gmap string value, d !! "market_cap") <$> recs)
               (r !! "market_cap");
             to_native ((λ d : gmap string value, d !! "total_volume") <$> recs)
               (r !! "total_volume");
             to_native (replicate (length recs) (Some (VStr (stamp w))))
               (Some (VStr (stamp w)))]) <$> recs).
Proof.
  exists (price_frame (stamp w) recs), (transformed w).
  rewrite transform_data_records. split; [done|].
  rewrite csv_text_price_frame. f_equal. f_equal.
  rewrite <- (fmap_lookup_seq
    (λ o : option (gmap string value),
       csv_line
         [to_native ((λ d : gmap string value, d !! "id") <$> recs)
            (default ∅ o !! "id");
          to_native ((λ d : gmap string value, d !! "symbol") <$> recs)
            (default ∅ o !! "symbol");
          to_native ((λ d : gmap string value, d !! "current_price") <$> recs)
            (default ∅ o !! "current_price");
          to_native ((λ d : gmap string value, d !! "market_cap") <$> recs)
            (default ∅ o !! "market_cap");
          to_native ((λ d : gmap string value, d !! "total_volume") <$> recs)
            (default ∅ o !! "total_volume");
          to_native (replicate (length recs) (Some (VStr (stamp w))))
            (Some (VStr (stamp w)))]) recs).
  apply list_fmap_ext; intros i j Hj. apply lookup_seq in Hj as [-> Hlt].
  unfold native_row, price_frame. simpl.
  rewrite !list_lookup_fmap, lookup_replicate_2 by done.
  destruct (lookup_lt_is_Some_2 recs i Hlt) as [r ->]. done.
Qed.

(** X12: the Transformer accepts every list of dicts, whatever keys
    and values the dicts hold (the empty dict included): it returns a
    frame of one row per dict whose cells are the dict's values under
    the five source keys, missing where the key is absent, and it
    appends the INFO record of the stage. *)
Theorem transform_accepts_any_records (recs : list (gmap string value)) (w : world) :
  ∃ df, transform_data (VList (VDict <$> recs)) w = (inr df, transformed w) ∧
        df_nrows df = length recs ∧
        rows df = price_row (stamp w) <$> recs ∧
        last (w_log (transformed w)) = Some (INFO, "Data transformation successful.").
Proof.
  exists (price_frame (stamp w) recs).
  rewrite transform_data_records, rows_price_frame. simpl.
  by rewrite last_snoc.
Qed.

End Pipeline.

(** ** The claims on sample runs *)

(** C1 as stated fails: a record without [total_volume] goes through
    the Transformer, and the run writes its row, with an empty field,
    to the snapshot. *)
Lemma missing_field_counterexample :
  bitcoin_without_volume !! "total_volume" = None ∧
  (∃ df, fst (transform_data reject_irregular
                (VList [VDict bitcoin_without_volume]) world_missing_volume) = inr df) ∧
  fst (etl_process "/app" plain_native reject_irregular whole_seconds
         world_missing_volume) = inr tt ∧
  Forall (λ entry : level * string, entry.1 = INFO)
    (w_log (snd (etl_process "/app" plain_native reject_irregular whole_seconds
                   world_missing_volume))) ∧
  w_fs (snd (etl_process "/app" plain_native reject_irregular whole_seconds
               world_missing_volume)) !! "/app/data/crypto_data.csv" =
    Some (header_line +:+
          "bitcoin,btc,65000,1.2e12,,2026-11-03 19:35:01" +:+ os_linesep).
Proof.
  split; [by vm_compute|]. split; [eexists; by vm_compute|].
  split; [by vm_compute|]. split; [|by vm_compute].
  vm_compute. repeat constructor.
Qed.

Lemma missing_field_gives_missing_cell_witness :
  [bitcoin_without_volume] !! 0 = Some bitcoin_without_volume ∧
  column_mapping !! "total_volume" = Some "volume_usd" ∧
  bitcoin_without_volume !! "total_volume" = None ∧
  ∀ w, ∃ df w',
    transform_data reject_irregular (VList (VDict <$> [bitcoin_without_volume])) w
      = (inr df, w') ∧
    rows df = price_row (stamp w) <$> [bitcoin_without_volume] ∧
    ∃ rw, rows df !! 0 = Some rw ∧ ("volume_usd", None) ∈ rw.
Proof.
  assert (H1 : [bitcoin_without_volume] !! 0 = Some bitcoin_without_volume)
    by reflexivity.
  assert (H2 : column_mapping !! "total_volume" = Some "volume_usd")
    by (vm_compute; reflexivity).
  assert (H3 : bitcoin_without_volume !! "total_volume" = None)
    by (vm_compute; reflexivity).
  split; [exact H1|]. split; [exact H2|]. split; [exact H3|].
  exact (proj1 (missing_field_gives_missing_cell "/app" plain_native
                  reject_irregular whole_seconds [bitcoin_without_volume] 0
                  bitcoin_without_volume "total_volume" "volume_usd" H1 H2 H3)).
Defined.

Lemma timestamp_sampled_once_witness :
  transform_data reject_irregular
    (VList [VDict bitcoin; VDict bitcoin_without_volume]) world_offline
  = (inr (price_frame "2026-11-03 19:35:00" [bitcoin; bitcoin_without_volume]),
     transformed world_offline) ∧
  datetime_ok (local_time (w_clock world_offline (w_ticks world_offline))) ∧
  w_ticks (transformed world_offline) = 1 ∧
  column (price_frame "2026-11-03 19:35:00" [bitcoin; bitcoin_without_volume])
    "timestamp" =
    Some [Some (VStr "2026-11-03 19:35:00"); Some (VStr "2026-11-03 19:35:00")] ∧
  is_timestamp "2026-11-03 19:35:00" = true.
Proof.
  assert (Hrun : transform_data reject_irregular
            (VList [VDict bitcoin; VDict bitcoin_without_volume]) world_offline
          = (inr (price_frame "2026-11-03 19:35:00" [bitcoin; bitcoin_without_volume]),
             transformed world_offline))
    by reflexivity.
  assert (Hclock : datetime_ok (local_time (w_clock world_offline (w_ticks world_offline))))
    by (unfold datetime_ok; simpl; lia).
  split; [exact Hrun|]. split; [exact Hclock|].
  destruct (timestamp_sampled_once reject_irregular _ _ _ _ Hrun Hclock)
    as (Hticks & Hcol & _ & Hshape).
  split; [exact Hticks|]. split; [exact Hcol|]. exact Hshape.
Defined.

Lemma transform_one_row_per_record_witness :
  Forall well_formed [bitcoin] ∧
  ∃ df w', transform_data reject_irregular (VList (VDict <$> [bitcoin]))
             world_offline = (inr df, w') ∧
    df_nrows df = 1 ∧
    rows df =
      [[("crypto_name", Some (VStr "bitcoin")); ("symbol", Some (VStr "btc"));
        ("price_usd", Some (VNum "65000")); ("market_cap_usd", Some (VNum "1.2e12"));
        ("volume_usd", Some (VNum "3e10"));
        ("timestamp", Some (VStr "2026-11-03 19:35:00"))]].
Proof.
  assert (Hwf : Forall well_formed [bitcoin]).
  { apply Forall_cons; split; [|apply Forall_nil_2].
    unfold well_formed, source_columns.
    repeat (apply Forall_cons; split; [vm_compute; eexists; reflexivity|]).
    apply Forall_nil_2. }
  split; [exact Hwf|].
  destruct (transform_one_row_per_record reject_irregular [bitcoin]
              world_offline Hwf)
    as (df & w' & Hrun & Hn & Hrows & _).
  exists df, w'. split; [exact Hrun|]. split; [exact Hn|].
  rewrite Hrows. vm_compute. reflexivity.
Defined.


(** C6 as stated fails: a response whose status is neither 2xx nor an
    error status (here 300), with a well-formed body, is returned as
    data, and nothing is logged as an error. *)
Lemma status_300_counterexample :
  answer world_300 = inr reply_300 ∧
  (status_code reply_300 <? 200)%N || (300 <=? status_code reply_300)%N = true ∧
  extract_data world_300 = (inr (VList []), extracted world_300) ∧
  w_log (snd (extract_data world_300)) = [(INFO, "Data extraction successful.")].
Proof.
  split; [reflexivity|]. split; [reflexivity|].
  split; [reflexivity|vm_compute; reflexivity].
Qed.

Lemma extract_failure_witness :
  (answer world_500 = inr reply_500 ∧ (400 <= status_code reply_500 < 600)%N) ∧
  ∃ e, extract_data world_500 =
         (inl e, log_error "Error in data extraction: " e (requested world_500)) ∧
       w_sent (snd (extract_data world_500)) = w_sent world_500 ++ [markets_request] ∧
       exn_class e = "HTTPError".
Proof.
  assert (Hnet : answer world_500 = inr reply_500) by reflexivity.
  assert (Hrange : (400 <= status_code reply_500 < 600)%N) by (simpl; lia).
  split; [split; [exact Hnet|exact Hrange]|].
  destruct (extract_failure "/app" plain_native reject_irregular whole_seconds
              world_500
              (or_intror (ex_intro _ reply_500 (conj Hnet (or_introl Hrange)))))
    as (e & Hrun & Hsent & _ & _ & Hcause).
  exists e. split; [exact Hrun|]. split; [exact Hsent|].
  destruct Hcause as [Hraised|(r' & Hr' & [[_ Hclass]|[Hok _]])].
  - rewrite Hnet in Hraised. discriminate Hraised.
  - exact Hclass.
  - rewrite Hnet in Hr'. injection Hr' as <-. vm_compute in Hok. discriminate Hok.
Defined.

Lemma load_data_replaces_snapshot_witness :
  w_io world_offline (output_file "/app")
    (csv_text plain_native (price_frame "2026-11-03 19:35:00" [bitcoin])) = None ∧
  w_fs world_offline !! "/app/data/crypto_data.csv" =
    Some ("crypto_name,symbol" +:+ os_linesep +:+ "dogecoin,doge" +:+ os_linesep) ∧
  w_fs (snd (load_data "/app" plain_native
               (price_frame "2026-11-03 19:35:00" [bitcoin]) world_offline))
    !! "/app/data/crypto_data.csv" =
    Some (header_line +:+ "bitcoin,btc,65000,1.2e12,3e10,2026-11-03 19:35:00" +:+
          os_linesep).
Proof.
  assert (Hio : w_io world_offline (output_file "/app")
                  (csv_text plain_native (price_frame "2026-11-03 19:35:00" [bitcoin]))
                = None) by reflexivity.
  split; [exact Hio|]. split; [vm_compute; reflexivity|].
  destruct (load_data_replaces_snapshot "/app" plain_native _ world_offline Hio)
    as (_ & _ & Hfile & _).
  change "/app/data/crypto_data.csv" with (output_file "/app").
  rewrite Hfile. vm_compute. reflexivity.
Defined.

Lemma load_data_twice_witness :
  fst (load_data "/app" plain_native
         (price_frame "2026-11-03 19:35:00" [bitcoin]) world_offline) = inr tt ∧
  fst (load_data "/app" plain_native (price_frame "2026-11-03 19:35:00" [bitcoin])
         (snd (load_data "/app" plain_native
                 (price_frame "2026-11-03 19:35:00" [bitcoin]) world_offline))) = inr tt ∧
  w_fs (snd (load_data "/app" plain_native
               (price_frame "2026-11-03 19:35:00" [bitcoin]) world_offline))
    !! output_file "/app"
  = Some (csv_text plain_native (price_frame "2026-11-03 19:35:00" [bitcoin])) ∧
  w_fs (snd (load_data "/app" plain_native (price_frame "2026-11-03 19:35:00" [bitcoin])
          (snd (load_data "/app" plain_native
                  (price_frame "2026-11-03 19:35:00" [bitcoin]) world_offline))))
    !! output_file "/app"
  = Some (csv_text plain_native (price_frame "2026-11-03 19:35:00" [bitcoin])).
Proof.
  assert (H1 : fst (load_data "/app" plain_native
                      (price_frame "2026-11-03 19:35:00" [bitcoin]) world_offline) = inr tt)
    by (vm_compute; reflexivity).
  assert (H2 : fst (load_data "/app" plain_native
                      (price_frame "2026-11-03 19:35:00" [bitcoin])
                      (snd (load_data "/app" plain_native
                              (price_frame "2026-11-03 19:35:00" [bitcoin])
                              world_offline))) = inr tt)
    by (vm_compute; reflexivity).
  split; [exact H1|]. split; [exact H2|].
  destruct (load_data_twice "/app" plain_native _ world_offline H1 H2)
    as (Hfirst & Hsecond & _).
  split; [exact Hfirst|exact Hsecond].
Defined.

Lemma empty_fetch_writes_header_only_witness :
  (answer world_empty = inr reply_empty ∧ status_code reply_empty = 200%N ∧
   json_body reply_empty = inr (VList []) ∧
   w_io world_empty (output_file "/app") header_line = None) ∧
  fst (etl_process "/app" plain_native reject_irregular whole_seconds world_empty)
    = inr tt ∧
  w_fs (snd (etl_process "/app" plain_native reject_irregular whole_seconds world_empty))
    !! output_file "/app" =
    Some ("crypto_name,symbol,price_usd,market_cap_usd,volume_usd,timestamp" +:+
          os_linesep).
Proof.
  assert (Hnet : answer world_empty = inr reply_empty) by reflexivity.
  assert (Hstatus : status_code reply_empty = 200%N) by reflexivity.
  assert (Hbody : json_body reply_empty = inr (VList [])) by reflexivity.
  assert (Hio : w_io world_empty (output_file "/app") header_line = None)
    by reflexivity.
  split; [repeat split; assumption|].
  destruct (empty_fetch_writes_header_only "/app" plain_native reject_irregular
              whole_seconds world_empty reply_empty Hnet Hstatus Hbody Hio)
    as (_ & Hok & Hfile & _).
  split; [exact Hok|exact Hfile].
Defined.

(** ** Sample runs *)

(** HTTP 500: one ERROR record, no write, nothing printed. *)
Example run_http_500 :
  w_log (snd (etl_process "/app" plain_native reject_irregular whole_seconds world_500)) =
    [(INFO, "ETL process started.");
     (ERROR, "Error in data extraction: 500 Server Error: Internal Server Error for url: https://api.coingecko.com/api/v3/coins/markets")] ∧
  w_fs (snd (etl_process "/app" plain_native reject_irregular whole_seconds world_500))
    = stale_snapshot ∧
  w_stdout (snd (etl_process "/app" plain_native reject_irregular whole_seconds world_500))
    = [].
Proof. split; [|split]; [vm_compute; reflexivity|reflexivity|vm_compute; reflexivity]. Qed.

(** A payload that is not a list of records: the Transformer raises what
    the DataFrame constructor raises, and the Writer does not run. *)
Example run_irregular_payload :
  fst (etl_process "/app" plain_native reject_irregular whole_seconds world_number)
    = inl (Exn "ValueError" "DataFrame constructor not properly called!") ∧
  w_log (snd (etl_process "/app" plain_native reject_irregular whole_seconds world_number)) =
    [(INFO, "ETL process started."); (INFO, "Data extraction successful.");
     (ERROR, "Error in data transformation: DataFrame constructor not properly called!")] ∧
  w_fs (snd (etl_process "/app" plain_native reject_irregular whole_seconds world_number))
    = stale_snapshot.
Proof. split; [|split]; [vm_compute; reflexivity..|reflexivity]. Qed.

(** The scenario of the specification: one record in, header and one
    row out. *)
Example run_bitcoin :
  fst (etl_process "/app" plain_native reject_irregular whole_seconds world_bitcoin)
    = inr tt ∧
  w_fs (snd (etl_process "/app" plain_native reject_irregular whole_seconds world_bitcoin))
    !! "/app/data/crypto_data.csv" =
    Some (header_line +:+ "bitcoin,btc,65000,1.2e12,3e10,2026-11-03 19:35:01" +:+
          os_linesep) ∧
  w_stdout (snd (etl_process "/app" plain_native reject_irregular whole_seconds
                   world_bitcoin))
    = ["Data successfully saved to /app/data/crypto_data.csv"].
Proof. split; [|split]; vm_compute; reflexivity. Qed.


(** ** Further properties on sample runs *)

Lemma transform_ignores_other_fields_witness :
  Forall2 (λ r1 r2 : gmap string value,
             ∀ c, c ∈ source_columns → r1 !! c = r2 !! c)
    [bitcoin] [bitcoin_with_timestamp] ∧
  transform_data reject_irregular (VList (VDict <$> [bitcoin])) world_offline
  = transform_data reject_irregular (VList (VDict <$> [bitcoin_with_timestamp]))
      world_offline.
Proof.
  assert (Hagree : Forall2 (λ r1 r2 : gmap string value,
                              ∀ c, c ∈ source_columns → r1 !! c = r2 !! c)
                     [bitcoin] [bitcoin_with_timestamp]).
  { constructor; [|constructor].
    intros c Hc. unfold source_columns in Hc.
    rewrite !elem_of_cons, elem_of_nil in Hc.
    destruct Hc as [->|[->|[->|[->|[->|[]]]]]]; vm_compute; reflexivity. }
  split; [exact Hagree|].
  exact (transform_ignores_other_fields reject_irregular _ _ world_offline Hagree).
Defined.

Lemma successful_run_effects_witness :
  fst (etl_process "/app" plain_native reject_irregular whole_seconds world_bitcoin)
    = inr tt ∧
  w_ticks (snd (etl_process "/app" plain_native reject_irregular whole_seconds
                  world_bitcoin)) = 3 ∧
  w_stdout (snd (etl_process "/app" plain_native reject_irregular whole_seconds
                   world_bitcoin))
    = ["Data successfully saved to /app/data/crypto_data.csv"].
Proof.
  assert (Hok : fst (etl_process "/app" plain_native reject_irregular whole_seconds
                       world_bitcoin) = inr tt) by (vm_compute; reflexivity).
  split; [exact Hok|].
  destruct (successful_run_effects "/app" plain_native reject_irregular
              whole_seconds world_bitcoin Hok)
    as (_ & Hout & _ & Hticks & _).
  split; [exact Hticks|exact Hout].
Defined.


Lemma snapshot_carries_transform_time_witness :
  (answer world_bitcoin = inr (reply 200 "OK" (inr (VList [VDict bitcoin]))) ∧
   fst (etl_process "/app" plain_native reject_irregular whole_seconds world_bitcoin)
     = inr tt) ∧
  ∃ df, rows df = price_row "2026-11-03 19:35:01" <$> [bitcoin] ∧
        w_fs (snd (etl_process "/app" plain_native reject_irregular whole_seconds
                     world_bitcoin)) !! output_file "/app"
        = Some (csv_text plain_native df).
Proof.
  assert (Hnet : answer world_bitcoin
                 = inr (reply 200 "OK" (inr (VList [VDict bitcoin])))) by reflexivity.
  assert (Hok : fst (etl_process "/app" plain_native reject_irregular whole_seconds
                       world_bitcoin) = inr tt) by (vm_compute; reflexivity).
  split; [split; [exact Hnet|exact Hok]|].
  exact (snapshot_carries_transform_time "/app" plain_native reject_irregular
           whole_seconds [bitcoin] world_bitcoin _ Hnet eq_refl eq_refl Hok).
Defined.

Lemma strftime_injective_witness :
  datetime_ok (local_time (sample_clock 5)) ∧
  strftime (local_time (sample_clock 5)) = "2026-11-03 19:35:05" ∧
  local_time (sample_clock 5) =
    {| year := 2026; month := 11; day := 3; hour := 19; minute := 35; second := 5 |}.
Proof.
  assert (Hok : datetime_ok (local_time (sample_clock 5)))
    by (unfold datetime_ok; simpl; lia).
  assert (Hok' : datetime_ok {| year := 2026; month := 11; day := 3;
                                hour := 19; minute := 35; second := 5 |})
    by (unfold datetime_ok; simpl; lia).
  assert (Heq : strftime (local_time (sample_clock 5)) =
                strftime {| year := 2026; month := 11; day := 3;
                            hour := 19; minute := 35; second := 5 |})
    by (vm_compute; reflexivity).
  split; [exact Hok|]. split; [vm_compute; reflexivity|].
  exact (strftime_injective _ _ Hok Hok' Heq).
Defined.
